(** * digital-life: the display bootstrap of [src/main.py]

    A shallow embedding of [DisplayManager] ([__init__], [load_config],
    [run]) and of [main].  The collaborators the program talks to (the file
    system, PyYAML, pygame's display and event queue) are given as an
    explicit [world]; every call the program makes on them is recorded, in
    program order, in a trace of [call]s. *)

From stdpp Require Import gmap strings list.
From Stdlib Require Import ZArith.

#[local] Set Warnings "-register-all".
Open Scope Z_scope.

(** ** Python values, as [yaml.safe_load] returns them

    The objects built from null, booleans, integers, strings, sequences
    and mappings with string keys.  A key of another type never equals the
    strings the program subscripts with. *)

Inductive pyval : Type :=
| PyNone
| PyBool (b : bool)
| PyInt (n : Z)
| PyStr (s : string)
| PyList (items : list pyval)
| PyDict (entries : gmap string pyval).

(** Truth value of an object in a conditional expression. *)
Definition truthy (v : pyval) : bool :=
  match v with
  | PyNone => false
  | PyBool b => b
  | PyInt n => negb (n =? 0)
  | PyStr s => negb (String.eqb s "")
  | PyList items => match items with [] => false | _ => true end
  | PyDict entries => negb (bool_decide (entries = ∅))
  end.

(** ** Exceptions that can reach the top level

    [SystemExit] is what [sys.exit()] raises; [PygameError] is
    [pygame.error]; [OSError] stands for the subclasses other than
    [FileNotFoundError] that [open] raises on a file it cannot read. *)

Inductive exn : Type :=
| FileNotFoundError
| OSError
| YAMLError
| KeyError (key : string)
| TypeError
| AttributeError
| PygameError
| SystemExit.

(** [v[key]] with a string key: a dict is looked up, every other object
    refuses a string subscript. *)
Definition getitem (v : pyval) (key : string) : exn + pyval :=
  match v with
  | PyDict entries =>
      match entries !! key with
      | Some x => inr x
      | None => inl (KeyError key)
      end
  | _ => inl TypeError
  end.

(** Exit status of the interpreter when the exception is not caught:
    [sys.exit()] carries no code and ends the process with 0, a traceback
    ends it with 1. *)
Definition exit_status (e : exn) : Z :=
  match e with
  | SystemExit => 0
  | _ => 1
  end.

(** ** pygame: constants, events, surfaces *)

Module pygame.

(** Event type codes, the Escape key code and the fullscreen display flag,
    with the values pygame 2 gives them. *)
Definition QUIT : Z := 256.
Definition KEYDOWN : Z := 768.
Definition KEYUP : Z := 769.
Definition MOUSEMOTION : Z := 1024.
Definition MOUSEBUTTONDOWN : Z := 1025.
Definition MOUSEBUTTONUP : Z := 1026.
Definition ACTIVEEVENT : Z := 32768.
Definition VIDEORESIZE : Z := 32769.
Definition VIDEOEXPOSE : Z := 32770.
Definition USEREVENT : Z := 32866.
Definition K_ESCAPE : Z := 27.
Definition FULLSCREEN : Z := -2147483648.

(** The events the queue hands out.  Only keyboard events carry a [key]
    attribute. *)
Inductive event : Type :=
| Quit
| KeyDown (key : Z) (modifiers : Z)
| KeyUp (key : Z) (modifiers : Z)
| MouseMotion
| MouseButtonDown
| MouseButtonUp
| ActiveEvent
| VideoResize
| VideoExpose
| UserEvent.

(** [event.type] *)
Definition type (e : event) : Z :=
  match e with
  | Quit => QUIT
  | KeyDown _ _ => KEYDOWN
  | KeyUp _ _ => KEYUP
  | MouseMotion => MOUSEMOTION
  | MouseButtonDown => MOUSEBUTTONDOWN
  | MouseButtonUp => MOUSEBUTTONUP
  | ActiveEvent => ACTIVEEVENT
  | VideoResize => VIDEORESIZE
  | VideoExpose => VIDEOEXPOSE
  | UserEvent => USEREVENT
  end.

(** [event.key]: [AttributeError] where the attribute does not exist. *)
Definition key (e : event) : exn + Z :=
  match e with
  | KeyDown k _ | KeyUp k _ => inr k
  | _ => inl AttributeError
  end.

(** An RGB colour, and a surface as the row-major list of its pixels. *)
Definition color : Type := Z * Z * Z.
Definition surface : Type := list color.

(** [Surface.fill(c)] without a rectangle: every pixel becomes [c]. *)
Definition fill (c : color) (s : surface) : surface := (λ _, c) <$> s.

(** What [display.set_mode] can answer: the display surface, [TypeError]
    for a size that is not a pair of numbers, or [pygame.error] when no
    such video mode can be set. *)
Inductive answer : Type :=
| Opened (s : surface)
| BadSize
| NoVideoMode.

Definition result (a : answer) : exn + surface :=
  match a with
  | Opened s => inr s
  | BadSize => inl TypeError
  | NoVideoMode => inl PygameError
  end.

End pygame.

(** ** The world outside the program *)

(** What sits at a path of the file system: a file [open] refuses, a file
    whose text [yaml.safe_load] rejects, or a file whose text it parses to
    the given object. *)
Inductive file : Type :=
| Unreadable
| Malformed
| Document (v : pyval).

Record world : Type := World {
  (** the files under the install root, by relative path *)
  files : gmap string file;
  (** the answer of [pygame.display.set_mode] to a size and flags *)
  display : pyval → pyval → Z → pygame.answer;
  (** what the successive calls of [pygame.event.get] return *)
  polls : list (list pygame.event)
}.

(** ** Calls on the collaborators, in program order *)

Inductive call : Type :=
| pygame_init
| open_file (path : string)
| yaml_safe_load
| display_set_mode (width height : pyval) (flags : Z)
| display_set_caption (title : string)
| event_get
| pygame_quit
| screen_fill (c : pygame.color)
| display_flip (frame : pygame.surface).

(** ** Computations: a log of calls, and a value or a raised exception *)

Definition M (A : Type) : Type := list call * (exn + A).

Definition ret {A} (a : A) : M A := ([], inr a).
Definition raise {A} (e : exn) : M A := ([], inl e).
Definition do (c : call) : M () := ([c], inr ()).
Definition lift {A} (r : exn + A) : M A := ([], r).
Definition bind {A B} (m : M A) (k : A → M B) : M B :=
  match m with
  | (t, inl e) => (t, inl e)
  | (t, inr a) => let '(t', r) := k a in (t ++ t', r)
  end.

Declare Scope py_scope.
Delimit Scope py_scope with py.
Notation "x <- m ;; k" := (bind m (λ x, k))
  (at level 100, m at next level, right associativity) : py_scope.
Notation "m ;; k" := (bind m (λ _, k))
  (at level 100, right associativity) : py_scope.
Open Scope py_scope.

(** ** class DisplayManager *)

Module DisplayManager.

(** The attributes of a constructed instance. *)
Record t : Type := Self {
  config : pyval;
  screen : pygame.surface
}.

(** [Path(__file__).parent.parent / 'config' / 'display.yml'], relative to
    the install root. *)
Definition config_path : string := "config/display.yml".

(** [load_config]: the value is what [self.config] is assigned. *)
Definition load_config (w : world) : M pyval :=
  do (open_file config_path);;
  match files w !! config_path with
  | None => raise FileNotFoundError
  | Some Unreadable => raise OSError
  | Some Malformed => do yaml_safe_load;; raise YAMLError
  | Some (Document v) => do yaml_safe_load;; ret v
  end.

(** [self.config['display'][key]] *)
Definition display_item (cfg : pyval) (key : string) : exn + pyval :=
  match getitem cfg "display" with
  | inr section => getitem section key
  | inl e => inl e
  end.

(** [__init__]: the arguments of [set_mode] are evaluated left to right
    before the call. *)
Definition __init__ (w : world) : M t :=
  do pygame_init;;
  cfg <- load_config w;;
  width <- lift (display_item cfg "width");;
  height <- lift (display_item cfg "height");;
  fullscreen <- lift (display_item cfg "fullscreen");;
  let flags := if truthy fullscreen then pygame.FULLSCREEN else 0 in
  do (display_set_mode width height flags);;
  scr <- lift (pygame.result (display w width height flags));;
  do (display_set_caption "Digital Life");;
  ret (Self cfg scr).

(** The test of the [if] in the event loop, with Python's short-circuit
    [or] and [and]. *)
Definition quit_test (e : pygame.event) : exn + bool :=
  if pygame.type e =? pygame.QUIT then inr true
  else if pygame.type e =? pygame.KEYDOWN then
    match pygame.key e with
    | inr k => inr (k =? pygame.K_ESCAPE)
    | inl x => inl x
    end
  else inr false.

(** [for event in pygame.event.get(): ...] over the list the call
    returned. *)
Fixpoint for_events (events : list pygame.event) : M () :=
  match events with
  | [] => ret ()
  | e :: rest =>
      b <- lift (quit_test e);;
      if b : bool then do pygame_quit;; raise SystemExit
      else for_events rest
  end.

Definition black : pygame.color := (0, 0, 0).

(** One pass through the body of [while True], on the batch of events that
    [pygame.event.get] returns. *)
Definition iteration (self : t) (batch : list pygame.event) : M t :=
  do event_get;;
  for_events batch;;
  do (screen_fill black);;
  let scr := pygame.fill black (screen self) in
  do (display_flip scr);;
  ret (Self (config self) scr).

(** [run]: the loop never returns; it is followed for as long as the
    schedule of polls lasts.  [None]: still looping when the schedule
    ends. *)
Fixpoint run (self : t) (schedule : list (list pygame.event))
  : list call * option exn :=
  match schedule with
  | [] => ([], None)
  | batch :: later =>
      match iteration self batch with
      | (tr, inl e) => (tr, Some e)
      | (tr, inr self') =>
          let '(tr', r) := run self' later in (tr ++ tr', r)
      end
  end.

End DisplayManager.

(** [main]: construct, then run. *)
Definition main (w : world) : list call * option exn :=
  match DisplayManager.__init__ w with
  | (tr, inl e) => (tr, Some e)
  | (tr, inr display) =>
      let '(tr', r) := DisplayManager.run display (polls w) in (tr ++ tr', r)
  end.

(** The process: what it called, and its exit status once it has ended. *)
Definition process (w : world) : list call * option Z :=
  let '(tr, r) := main w in (tr, exit_status <$> r).

(** ** The vocabulary of the specification *)

(** The spec's one entity: positive width and height, a boolean flag. *)
Record DisplayConfig : Type := {
  width : positive;
  height : positive;
  fullscreen : bool
}.

(** A [DisplayConfig] written in the expected document shape
    ([display:] with [width:], [height:] and [fullscreen:] below it), as
    the object [yaml.safe_load] reads back from that text. *)
Definition document_of (c : DisplayConfig) : pyval :=
  PyDict {[ "display" :=
    PyDict (<["width" := PyInt (Z.pos (width c))]>
            (<["height" := PyInt (Z.pos (height c))]>
             {[ "fullscreen" := PyBool (fullscreen c) ]})) ]}.

(** The value under [display:] / [key] of a document, if it has one. *)
Definition field (doc : pyval) (key : string) : option pyval :=
  match doc with
  | PyDict top =>
      match top !! "display" with
      | Some (PyDict section) => section !! key
      | _ => None
      end
  | _ => None
  end.

(** A document in which one of the three keys the constructor reads is
    absent. *)
Definition lacks_a_key (doc : pyval) : Prop :=
  field doc "width" = None ∨ field doc "height" = None ∨
  field doc "fullscreen" = None.

(** The spec's [ConfigError]: the configuration file is missing
    ([FileNotFoundError]), unreadable ([OSError]), malformed
    ([YAMLError]), not of the expected key-value structure ([TypeError]
    from a subscript) or lacks a key ([KeyError]).  The program has no
    exception class of its own. *)
Definition ConfigError (e : exn) : bool :=
  match e with
  | FileNotFoundError | OSError | YAMLError | KeyError _ | TypeError => true
  | AttributeError | PygameError | SystemExit => false
  end.

(** Quit-intent, in the spec's words: (a) a window-close event, or (b) a
    key-press event whose key is Escape. *)
Definition window_close (e : pygame.event) : bool :=
  match e with
  | pygame.Quit => true
  | _ => false
  end.

Definition escape_press (e : pygame.event) : bool :=
  match e with
  | pygame.KeyDown k _ => bool_decide (k = pygame.K_ESCAPE)
  | _ => false
  end.

Definition quit_intent (e : pygame.event) : bool :=
  window_close e || escape_press e.

(** A call that asks for a window. *)
Definition opens_window (c : call) : bool :=
  match c with
  | display_set_mode _ _ _ => true
  | _ => false
  end.

(** A call that clears or presents a frame. *)
Definition draws (c : call) : bool :=
  match c with
  | screen_fill _ | display_flip _ => true
  | _ => false
  end.

(** The frames presented, in order. *)
Definition frames (tr : list call) : list pygame.surface :=
  omap (λ c, match c with display_flip f => Some f | _ => None end) tr.

(** The calls of one pass of the loop that meets no quit-intent. *)
Definition pass (self : DisplayManager.t) : list call :=
  [event_get; screen_fill DisplayManager.black;
   display_flip (pygame.fill DisplayManager.black (DisplayManager.screen self))].

(** ** Sample worlds *)

Module Sample.

(** The configuration of the spec's fullscreen-flag scenario. *)
Definition windowed : DisplayConfig :=
  {| width := 800; height := 600; fullscreen := false |}.

Definition exclusive : DisplayConfig :=
  {| width := 1920; height := 1080; fullscreen := true |}.

(** A display that opens a surface of two pixels with leftover content. *)
Definition tiny (width height : pyval) (flags : Z) : pygame.answer :=
  pygame.Opened [(255, 255, 255); (12, 34, 56)].

(** A machine without a display. *)
Definition headless (width height : pyval) (flags : Z) : pygame.answer :=
  pygame.NoVideoMode.

(** A document with a [display] section that has no [height]. *)
Definition no_height : pyval :=
  PyDict {[ "display" :=
    PyDict (<["width" := PyInt 800]> {[ "fullscreen" := PyBool false ]}) ]}.

(** Mouse movement, then a released key, then the window is closed. *)
Definition session : list (list pygame.event) :=
  [[pygame.MouseMotion]; [pygame.KeyUp pygame.K_ESCAPE 0; pygame.MouseButtonDown];
   [pygame.MouseMotion; pygame.Quit; pygame.KeyDown 97 0]; [pygame.MouseMotion]].

(** Polls without any quit-intent. *)
Definition idle : list (list pygame.event) :=
  [[]; [pygame.MouseMotion; pygame.KeyDown 97 0]; [pygame.ActiveEvent]].

Definition configured (c : DisplayConfig) : world :=
  World {[ DisplayManager.config_path := Document (document_of c) ]} tiny session.

Definition unconfigured : world := World ∅ tiny session.

Definition half_configured : world :=
  World {[ DisplayManager.config_path := Document no_height ]} headless idle.

(** A constructed instance whose surface still shows something. *)
Definition self : DisplayManager.t :=
  DisplayManager.Self (document_of windowed) [(255, 255, 255); (12, 34, 56)].

End Sample.

(** ** Measures of a schedule and of a trace *)

(** The batch makes the loop leave: some event in it passes the test. *)
Definition batch_quits (batch : list pygame.event) : bool :=
  existsb quit_intent batch.

(** Some poll of the schedule makes the loop leave. *)
Definition reaches_quit (schedule : list (list pygame.event)) : bool :=
  existsb batch_quits schedule.

(** The number of polls before the first one that makes the loop leave. *)
Fixpoint quiet_polls (schedule : list (list pygame.event)) : nat :=
  match schedule with
  | [] => 0
  | batch :: later =>
      if batch_quits batch then 0%nat else S (quiet_polls later)
  end.



(** The first of the keys [width], [height], [fullscreen], in the order
    the constructor reads them, that a [display] section does not have. *)
Definition first_missing (section : gmap string pyval) : option string :=
  head (List.filter (λ k, bool_decide (section !! k = None))
          ["width"; "height"; "fullscreen"]).

(** ** More sample worlds *)

Module Scenario.

(** A document whose values are of no use as a size or a flag, and which
    has keys nobody asked for. *)
Definition odd : pyval :=
  PyDict (<["title" := PyStr "ignored"]> {[ "display" :=
    PyDict (<["width" := PyStr "wide"]>
            (<["height" := PyInt (-5)]>
             (<["depth" := PyInt 32]>
              {[ "fullscreen" := PyStr "false" ]}))) ]}).

(** The same three values and nothing else. *)
Definition odd_bare : pyval :=
  PyDict {[ "display" :=
    PyDict (<["width" := PyStr "wide"]>
            (<["height" := PyInt (-5)]>
             {[ "fullscreen" := PyStr "false" ]})) ]}.

(** A [display] section with [width] only. *)
Definition width_only : pyval :=
  PyDict {[ "display" := PyDict {[ "width" := PyInt 640 ]} ]}.

(** A display that refuses sizes that are not two integers. *)
Definition strict (width height : pyval) (flags : Z) : pygame.answer :=
  match width, height with
  | PyInt _, PyInt _ => pygame.Opened [(9, 9, 9); (8, 8, 8); (7, 7, 7)]
  | _, _ => pygame.BadSize
  end.

Definition with_document (doc : pyval)
    (display : pyval → pyval → Z → pygame.answer)
    (polls : list (list pygame.event)) : world :=
  World {[ DisplayManager.config_path := Document doc ]} display polls.


(** The polls of [Sample.session] with every event that is not
    quit-intent taken out. *)
Definition bare_session : list (list pygame.event) :=
  [[]; []; [pygame.Quit]; []].

End Scenario.

(** ** The program on the sample worlds *)

Example process_configured :
  process (Sample.configured Sample.windowed) =
    ([pygame_init; open_file "config/display.yml"; yaml_safe_load;
      display_set_mode (PyInt 800) (PyInt 600) 0;
      display_set_caption "Digital Life";
      event_get; screen_fill (0, 0, 0); display_flip [(0, 0, 0); (0, 0, 0)];
      event_get; screen_fill (0, 0, 0); display_flip [(0, 0, 0); (0, 0, 0)];
      event_get; pygame_quit],
     Some 0).
Proof. vm_compute. reflexivity. Qed.

Example process_exclusive_headless :
  process (World (files (Sample.configured Sample.exclusive)) Sample.headless []) =
    ([pygame_init; open_file "config/display.yml"; yaml_safe_load;
      display_set_mode (PyInt 1920) (PyInt 1080) (-2147483648)],
     Some 1).
Proof. vm_compute. reflexivity. Qed.

Example process_unconfigured :
  process Sample.unconfigured =
    ([pygame_init; open_file "config/display.yml"], Some 1).
Proof. vm_compute. reflexivity. Qed.

Example main_half_configured :
  main Sample.half_configured =
    ([pygame_init; open_file "config/display.yml"; yaml_safe_load],
     Some (KeyError "height")).
Proof. vm_compute. reflexivity. Qed.

Example main_idle :
  (main (World (files (Sample.configured Sample.windowed)) Sample.tiny Sample.idle)).2
  = None.
Proof. vm_compute. reflexivity. Qed.

(** ** The event loop *)

Section EventLoop.

Import DisplayManager.

Implicit Types (self : DisplayManager.t) (e : pygame.event)
  (batch : list pygame.event) (schedule : list (list pygame.event)).

Lemma quit_test_intent e : quit_test e = inr (quit_intent e).
Proof.
  destruct e as [|k m|k m| | | | | | |]; try reflexivity.
  cbn. unfold quit_intent. cbn.
  f_equal. destruct (Z.eqb_spec k pygame.K_ESCAPE) as [->|Hk].
  - by rewrite bool_decide_eq_true_2.
  - by rewrite bool_decide_eq_false_2.
Qed.

Lemma for_events_quiet batch :
  Forall (λ e, quit_intent e = false) batch →
  for_events batch = ([], inr ()).
Proof.
  induction 1 as [|e rest He _ IH]; [reflexivity|].
  cbn [for_events]. rewrite quit_test_intent, He. cbn. by rewrite IH.
Qed.

Lemma for_events_quit batch :
  Exists (λ e, quit_intent e = true) batch →
  for_events batch = ([pygame_quit], inl SystemExit).
Proof.
  induction batch as [|e rest IH]; intros Hex; [by apply Exists_nil in Hex|].
  cbn [for_events]. rewrite quit_test_intent.
  destruct (quit_intent e) eqn:He; [reflexivity|].
  apply Exists_cons in Hex as [Hhd|Htl]; [congruence|].
  cbn. by rewrite (IH Htl).
Qed.

Lemma iteration_quiet self batch :
  Forall (λ e, quit_intent e = false) batch →
  iteration self batch =
    (pass self, inr (Self (config self) (pygame.fill black (screen self)))).
Proof.
  intros Hq. unfold iteration. by rewrite (for_events_quiet _ Hq).
Qed.

Lemma iteration_quit self batch :
  Exists (λ e, quit_intent e = true) batch →
  iteration self batch = ([event_get; pygame_quit], inl SystemExit).
Proof.
  intros Hq. unfold iteration. by rewrite (for_events_quit _ Hq).
Qed.

Lemma quiet_or_quit batch :
  Forall (λ e, quit_intent e = false) batch ∨
  Exists (λ e, quit_intent e = true) batch.
Proof.
  induction batch as [|e rest [IH|IH]].
  - left. constructor.
  - destruct (quit_intent e) eqn:He.
    + right. by left.
    + left. by constructor.
  - right. by right.
Qed.

Lemma fill_fill c c' (s : pygame.surface) :
  pygame.fill c (pygame.fill c' s) = pygame.fill c s.
Proof. unfold pygame.fill. by rewrite <- list_fmap_compose. Qed.

(** The loop reads its surface only after clearing it. *)
Lemma iteration_screen self scr batch :
  length scr = length (screen self) →
  iteration (Self (config self) scr) batch = iteration self batch.
Proof.
  intros Hlen. unfold iteration. cbn [screen config].
  assert (pygame.fill black scr = pygame.fill black (screen self)) as ->; [|done].
  unfold pygame.fill. revert Hlen. generalize (screen self).
  induction scr as [|p scr IH]; intros [|q s'] Hl; cbn in *; try done.
  f_equal. apply IH. lia.
Qed.

Lemma run_screen self scr schedule :
  length scr = length (screen self) →
  run (Self (config self) scr) schedule = run self schedule.
Proof.
  intros Hlen. destruct schedule as [|batch later]; [reflexivity|].
  cbn [run]. by rewrite (iteration_screen self scr batch Hlen).
Qed.

Lemma run_quiet self quiet later :
  Forall (Forall (λ e, quit_intent e = false)) quiet →
  run self (quiet ++ later) =
    (mjoin (replicate (length quiet) (pass self)) ++ (run self later).1,
     (run self later).2).
Proof.
  induction 1 as [|batch quiet Hb _ IH].
  - cbn. by destruct (run self later).
  - cbn [app run length replicate]. rewrite (iteration_quiet _ _ Hb).
    rewrite (run_screen self); [|unfold pygame.fill; by rewrite length_fmap].
    rewrite IH. reflexivity.
Qed.

Lemma frames_passes self n tr :
  frames (mjoin (replicate n (pass self)) ++ tr) =
    replicate n (pygame.fill black (screen self)) ++ frames tr.
Proof.
  induction n as [|n IH]; [reflexivity|].
  change (frames (pass self ++ (mjoin (replicate n (pass self)) ++ tr)) =
    pygame.fill black (screen self) ::
      (replicate n (pygame.fill black (screen self)) ++ frames tr)).
  rewrite <- IH. reflexivity.
Qed.

End EventLoop.

(** ** Claims about the event loop *)

Section LoopClaims.

Import DisplayManager.

Implicit Types (self : DisplayManager.t) (e : pygame.event)
  (batch : list pygame.event) (schedule : list (list pygame.event)).

Lemma run_quit_now self batch later :
  Exists (λ e, quit_intent e = true) batch →
  run self (batch :: later) = ([event_get; pygame_quit], Some SystemExit).
Proof. intros Hq. cbn [run]. by rewrite (iteration_quit _ _ Hq). Qed.

Lemma run_quiet_now self batch later :
  Forall (λ e, quit_intent e = false) batch →
  run self (batch :: later) =
    (pass self ++ (run self later).1, (run self later).2).
Proof. intros Hq. apply (run_quiet self [batch] later). by constructor. Qed.

(** C1.  A loop that is still running (no quit-intent in the earlier
    polls) and drains a batch holding a window-close event ends in that
    very iteration: after the [event.get] of the iteration the only call
    is [pygame.quit], the exception is [SystemExit] and the exit status is
    0.  The later polls are never made, and the closing iteration neither
    clears nor presents a frame. *)
Theorem close_event_ends_loop self quiet batch later :
  Forall (Forall (λ e, quit_intent e = false)) quiet →
  pygame.Quit ∈ batch →
  run self (quiet ++ batch :: later) =
    (mjoin (replicate (length quiet) (pass self)) ++ [event_get; pygame_quit],
     Some SystemExit) ∧
  exit_status SystemExit = 0 ∧
  (iteration self batch).2 = inl SystemExit ∧
  Forall (λ c, draws c = false) (iteration self batch).1 ∧
  length (frames (run self (quiet ++ batch :: later)).1) = length quiet.
Proof.
  intros Hquiet Hin.
  assert (Exists (λ e, quit_intent e = true) batch) as Hq.
  { apply Exists_exists. by exists pygame.Quit. }
  assert (run self (quiet ++ batch :: later) =
    (mjoin (replicate (length quiet) (pass self)) ++ [event_get; pygame_quit],
     Some SystemExit)) as Hrun.
  { by rewrite (run_quiet _ _ _ Hquiet), (run_quit_now _ _ _ Hq). }
  rewrite Hrun, (iteration_quit _ _ Hq). cbn [fst snd].
  split_and!; try done.
  - by repeat constructor.
  - rewrite frames_passes, length_app, length_replicate. cbn. lia.
Qed.

Lemma close_event_ends_loop_witness :
  Forall (Forall (λ e, quit_intent e = false)) (take 2 Sample.session) ∧
  pygame.Quit ∈ [pygame.MouseMotion; pygame.Quit; pygame.KeyDown 97 0] ∧
  run Sample.self Sample.session =
    (pass Sample.self ++ pass Sample.self ++ [event_get; pygame_quit],
     Some SystemExit).
Proof.
  assert (Forall (Forall (λ e, quit_intent e = false)) (take 2 Sample.session))
    as Hquiet by (repeat constructor).
  assert (pygame.Quit ∈ [pygame.MouseMotion; pygame.Quit; pygame.KeyDown 97 0])
    as Hin by (right; left).
  split_and!; [exact Hquiet|exact Hin|].
  exact (proj1 (close_event_ends_loop Sample.self _ _ [[pygame.MouseMotion]]
                  Hquiet Hin)).
Defined.

(** C2.  An Escape key press ends the loop, and ends it exactly as a
    window-close event in the same place does: the two runs make the same
    calls (the last of them [pygame.quit], with nothing cleared or
    presented after the poll that delivered the event) and leave with the
    same exception, [SystemExit], whose exit status is 0. *)
Theorem escape_same_as_close self earlier seen unseen later modifiers :
  let escape :=
    earlier ++ (seen ++ pygame.KeyDown pygame.K_ESCAPE modifiers :: unseen) :: later in
  let close := earlier ++ (seen ++ pygame.Quit :: unseen) :: later in
  run self escape = run self close ∧
  (run self escape).2 = Some SystemExit ∧
  exit_status SystemExit = 0 ∧
  ∃ tr, (run self escape).1 = tr ++ [event_get; pygame_quit].
Proof.
  cbn zeta.
  assert (∀ ev, quit_intent ev = true →
    ∃ tr, run self (earlier ++ (seen ++ ev :: unseen) :: later) =
      (tr ++ [event_get; pygame_quit], Some SystemExit) ∧
      ∀ ev', quit_intent ev' = true →
        run self (earlier ++ (seen ++ ev' :: unseen) :: later) =
        (tr ++ [event_get; pygame_quit], Some SystemExit)) as Hboth.
  { intros ev Hev. induction earlier as [|b earlier IH].
    - exists []. cbn [app]. split; [|intros ev' Hev'];
        apply run_quit_now, Exists_app; right; by left.
    - destruct IH as (tr & Hrun & Hsame).
      destruct (quiet_or_quit b) as [Hb|Hb].
      + exists (pass self ++ tr). cbn [app].
        split; [|intros ev' Hev'];
          rewrite (run_quiet_now _ _ _ Hb); [rewrite Hrun|rewrite (Hsame _ Hev')];
          cbn [fst snd]; by rewrite <- app_assoc.
      + exists []. cbn [app]. split; [|intros ev' Hev']; by apply run_quit_now. }
  destruct (Hboth (pygame.KeyDown pygame.K_ESCAPE modifiers) eq_refl)
    as (tr & Hesc & Hsame).
  rewrite Hesc, (Hsame pygame.Quit eq_refl). cbn [fst snd].
  split_and!; try done. by exists tr.
Qed.

(** C3.  Quit-intent is the loop's only way out.  A batch with neither a
    window-close event nor an Escape key press leaves the loop running:
    the iteration raises nothing, clears the screen and presents it.  And
    whenever the loop is left at all, it is left by [SystemExit], in an
    iteration whose batch held a window-close event or an Escape key
    press. *)
Theorem quit_intent_only_exit self schedule :
  (∀ batch later,
     Forall (λ e, window_close e = false ∧ escape_press e = false) batch →
     iteration self batch =
       (pass self, inr (Self (config self) (pygame.fill black (screen self)))) ∧
     run self (batch :: later) =
       (pass self ++ (run self later).1, (run self later).2)) ∧
  (Forall (Forall (λ e, window_close e = false ∧ escape_press e = false)) schedule →
     run self schedule = (mjoin (replicate (length schedule) (pass self)), None)) ∧
  (∀ x, (run self schedule).2 = Some x →
     x = SystemExit ∧
     Exists (Exists (λ e, window_close e = true ∨ escape_press e = true)) schedule).
Proof.
  assert (∀ batch,
    Forall (λ e, window_close e = false ∧ escape_press e = false) batch →
    Forall (λ e, quit_intent e = false) batch) as Hno.
  { intros batch Hb. eapply Forall_impl; [exact Hb|]. intros e [Hc Hk].
    unfold quit_intent. by rewrite Hc, Hk. }
  split_and!.
  - intros batch later Hb%Hno. split.
    + by apply iteration_quiet.
    + by apply run_quiet_now.
  - intros Hall.
    assert (Forall (Forall (λ e, quit_intent e = false)) schedule) as Hq.
    { eapply Forall_impl; [exact Hall|exact Hno]. }
    pose proof (run_quiet self schedule [] Hq) as Hrun.
    by rewrite !app_nil_r in Hrun.
  - induction schedule as [|b schedule IH]; intros x; [done|].
    destruct (quiet_or_quit b) as [Hb|Hb].
    + rewrite (run_quiet_now _ _ _ Hb). cbn [snd]. intros [-> Hex]%IH.
      split; [done|by right].
    + rewrite (run_quit_now _ _ _ Hb). cbn [snd]. intros [= <-].
      split; [done|]. left. eapply Exists_impl; [exact Hb|]. intros e.
      unfold quit_intent. by intros [?|?]%orb_true_iff; [left|right].
Qed.

Lemma quit_intent_only_exit_witness :
  Forall (Forall (λ e, window_close e = false ∧ escape_press e = false))
    Sample.idle ∧
  run Sample.self Sample.idle =
    (pass Sample.self ++ pass Sample.self ++ pass Sample.self, None) ∧
  ((run Sample.self Sample.session).2 = Some SystemExit →
   Exists (Exists (λ e, window_close e = true ∨ escape_press e = true))
     Sample.session).
Proof.
  assert (Forall (Forall (λ e, window_close e = false ∧ escape_press e = false))
            Sample.idle) as Hidle by (repeat constructor).
  split_and!; [exact Hidle| |].
  - exact (proj1 (proj2 (quit_intent_only_exit Sample.self Sample.idle)) Hidle).
  - intros Hleft.
    exact (proj2 (proj2 (proj2 (quit_intent_only_exit Sample.self Sample.session))
                    SystemExit Hleft)).
Defined.

(** C4.  Over any number of iterations without quit-intent, one frame is
    presented per iteration, every frame covers the whole surface and
    every pixel of it is black (0,0,0); and what is presented does not
    depend on what the surface held before: starting the loop on any other
    content of the same surface gives the same calls and frames. *)
Theorem frames_all_black self schedule :
  Forall (Forall (λ e, quit_intent e = false)) schedule →
  length (frames (run self schedule).1) = length schedule ∧
  Forall (λ frame, length frame = length (screen self) ∧
                   Forall (λ px, px = (0, 0, 0)) frame)
         (frames (run self schedule).1) ∧
  ∀ content, length content = length (screen self) →
    run (Self (config self) content) schedule = run self schedule.
Proof.
  intros Hq. pose proof (run_quiet self schedule [] Hq) as Hrun.
  rewrite !app_nil_r in Hrun. rewrite Hrun. cbn [fst].
  pose proof (frames_passes self (length schedule) []) as Hfr.
  rewrite !app_nil_r in Hfr. rewrite Hfr.
  split_and!.
  - by rewrite length_replicate.
  - apply Forall_replicate. unfold pygame.fill. split.
    + by rewrite length_fmap.
    + apply Forall_fmap, Forall_true. done.
  - intros content Hlen. rewrite <- Hrun. by apply run_screen.
Qed.

Lemma frames_all_black_witness :
  Forall (Forall (λ e, quit_intent e = false)) Sample.idle ∧
  length (frames (run Sample.self Sample.idle).1) = 3%nat ∧
  Forall (λ frame, length frame = 2%nat ∧ Forall (λ px, px = (0, 0, 0)) frame)
    (frames (run Sample.self Sample.idle).1).
Proof.
  assert (Forall (Forall (λ e, quit_intent e = false)) Sample.idle)
    as Hidle by (repeat constructor).
  destruct (frames_all_black Sample.self Sample.idle Hidle) as (Hn & Hblack & _).
  split_and!; [exact Hidle|exact Hn|exact Hblack].
Defined.

End LoopClaims.

(** ** Start-up: configuration and window *)

Section Startup.

Import DisplayManager.

Implicit Types (w : world) (doc : pyval) (c : DisplayConfig).

Lemma load_config_absent w :
  files w !! config_path = None →
  load_config w = ([open_file config_path], inl FileNotFoundError).
Proof. intros H. unfold load_config. by rewrite H. Qed.

Lemma load_config_unreadable w :
  files w !! config_path = Some Unreadable →
  load_config w = ([open_file config_path], inl OSError).
Proof. intros H. unfold load_config. by rewrite H. Qed.

Lemma load_config_malformed w :
  files w !! config_path = Some Malformed →
  load_config w = ([open_file config_path; yaml_safe_load], inl YAMLError).
Proof. intros H. unfold load_config. by rewrite H. Qed.

Lemma load_config_document w doc :
  files w !! config_path = Some (Document doc) →
  load_config w = ([open_file config_path; yaml_safe_load], inr doc).
Proof. intros H. unfold load_config. by rewrite H. Qed.

(** The constructor, once the loader has failed. *)
Lemma init_loader_fails w tr e :
  load_config w = (tr, inl e) →
  __init__ w = (pygame_init :: tr, inl e).
Proof. intros H. unfold __init__. by rewrite H. Qed.

(** A subscript chain finds a value exactly where the document has the
    field; otherwise it raises [KeyError] or [TypeError]. *)
Lemma display_item_field doc key :
  match field doc key with
  | Some x => display_item doc key = inr x
  | None => ∃ e, display_item doc key = inl e ∧
                 (e = TypeError ∨ ∃ k, e = KeyError k)
  end.
Proof.
  unfold field, display_item, getitem.
  destruct doc as [| | | | |top]; try by (eexists; split; [|left]).
  destruct (top !! "display") as [[| | | | |section]|];
    try by (eexists; split; [|left]).
  - destruct (section !! key); [done|]. eexists. split; [done|]. right. by eexists.
  - eexists. split; [done|]. right. by eexists.
Qed.

Lemma display_item_lacking doc key :
  field doc key = None →
  ∃ e, display_item doc key = inl e ∧ (e = TypeError ∨ ∃ k, e = KeyError k).
Proof. intros H. pose proof (display_item_field doc key) as Hf. by rewrite H in Hf. Qed.

(** The constructor on a document that lacks a key: the loader's calls,
    then the exception, before any call on the display. *)
Lemma init_lacking w doc :
  files w !! config_path = Some (Document doc) →
  lacks_a_key doc →
  ∃ e, __init__ w =
         ([pygame_init; open_file config_path; yaml_safe_load], inl e) ∧
       (e = TypeError ∨ ∃ k, e = KeyError k).
Proof.
  intros Hfile Hlacks. unfold lacks_a_key in Hlacks. unfold __init__.
  rewrite (load_config_document _ _ Hfile). cbn [do bind app].
  pose proof (display_item_field doc "width") as Hw.
  pose proof (display_item_field doc "height") as Hh.
  pose proof (display_item_field doc "fullscreen") as Hf.
  destruct (field doc "width") as [x|].
  2:{ destruct Hw as (e & -> & He). by exists e. }
  rewrite Hw. cbn [lift bind app].
  destruct (field doc "height") as [y|].
  2:{ destruct Hh as (e & -> & He). by exists e. }
  rewrite Hh. cbn [lift bind app].
  destruct (field doc "fullscreen") as [z|].
  2:{ destruct Hf as (e & -> & He). by exists e. }
  by destruct Hlacks as [|[|]].
Qed.

Lemma config_error_subscript e :
  e = TypeError ∨ (∃ k, e = KeyError k) → ConfigError e = true ∧ exit_status e = 1.
Proof. by intros [->|[k ->]]. Qed.

Lemma main_init_fails w tr e :
  __init__ w = (tr, inl e) → main w = (tr, Some e).
Proof. intros H. unfold main. by rewrite H. Qed.

Lemma document_of_field c :
  field (document_of c) "width" = Some (PyInt (Z.pos (width c))) ∧
  field (document_of c) "height" = Some (PyInt (Z.pos (height c))) ∧
  field (document_of c) "fullscreen" = Some (PyBool (fullscreen c)).
Proof. by split_and!. Qed.

Lemma document_of_item c :
  display_item (document_of c) "width" = inr (PyInt (Z.pos (width c))) ∧
  display_item (document_of c) "height" = inr (PyInt (Z.pos (height c))) ∧
  display_item (document_of c) "fullscreen" = inr (PyBool (fullscreen c)).
Proof. by split_and!. Qed.

(** The constructor on a document that has the three keys. *)
Lemma init_complete w doc x y z :
  files w !! config_path = Some (Document doc) →
  display_item doc "width" = inr x →
  display_item doc "height" = inr y →
  display_item doc "fullscreen" = inr z →
  let flags := if truthy z then pygame.FULLSCREEN else 0 in
  let before :=
    [pygame_init; open_file config_path; yaml_safe_load;
     display_set_mode x y flags] in
  __init__ w =
    match pygame.result (display w x y flags) with
    | inr scr => (before ++ [display_set_caption "Digital Life"],
                  inr (Self doc scr))
    | inl e => (before, inl e)
    end.
Proof.
  intros Hfile Hx Hy Hz. unfold __init__.
  rewrite (load_config_document _ _ Hfile). cbn [do bind app].
  rewrite Hx. cbn [lift bind app]. rewrite Hy. cbn [lift bind app].
  rewrite Hz. cbn [lift bind app do].
  by destruct (pygame.result _).
Qed.

(** Every way the configuration can be at fault ends the process in the
    constructor, after [pygame.init] and the loader's own calls. *)
Lemma main_config_fault w :
  files w !! config_path = None ∨
  files w !! config_path = Some Unreadable ∨
  files w !! config_path = Some Malformed ∨
  (∃ doc, files w !! config_path = Some (Document doc) ∧ lacks_a_key doc) →
  ∃ tr e, main w = (pygame_init :: open_file config_path :: tr, Some e) ∧
          (tr = [] ∨ tr = [yaml_safe_load]) ∧
          ConfigError e = true ∧ exit_status e = 1.
Proof.
  intros [H|[H|[H|(doc & H & Hlacks)]]].
  - exists [], FileNotFoundError. split_and!; [|by left|done..].
    apply main_init_fails, init_loader_fails, load_config_absent, H.
  - exists [], OSError. split_and!; [|by left|done..].
    apply main_init_fails, init_loader_fails, load_config_unreadable, H.
  - exists [yaml_safe_load], YAMLError. split_and!; [|by right|done..].
    apply main_init_fails, init_loader_fails, load_config_malformed, H.
  - destruct (init_lacking _ _ H Hlacks) as (e & Hinit & He).
    destruct (config_error_subscript _ He) as [Hcfg Hst].
    exists [yaml_safe_load], e. split_and!; [|by right|done..].
    by apply main_init_fails.
Qed.

(** Whatever the world, the first two calls are [pygame.init] and the
    [open] of the configuration file. *)
Lemma init_starts w :
  ∃ tr, (__init__ w).1 = pygame_init :: open_file config_path :: tr.
Proof.
  unfold __init__, load_config.
  destruct (files w !! config_path) as [[| |doc]|]; try by eexists.
  cbn [do ret bind app].
  destruct (display_item doc "width") as [e|x]; [by eexists|].
  destruct (display_item doc "height") as [e|y]; [by eexists|].
  destruct (display_item doc "fullscreen") as [e|z]; [by eexists|].
  cbn [lift bind app do].
  destruct (pygame.result _); by eexists.
Qed.

End Startup.

(** ** Claims about start-up *)

Section StartupClaims.

Import DisplayManager.

Implicit Types (w : world) (doc : pyval) (c : DisplayConfig).

(** C5.  With the configuration document of a [DisplayConfig] in place,
    the constructor asks for exactly one window, of exactly the configured
    width and height, with flags 0 (windowed) when [fullscreen] is false
    and [pygame.FULLSCREEN] when it is true; the two requests differ, so
    the flag is never dropped. *)
Theorem window_request_follows_config w c :
  files w !! config_path = Some (Document (document_of c)) →
  (∃ rest,
     (__init__ w).1 =
       [pygame_init; open_file config_path; yaml_safe_load;
        display_set_mode (PyInt (Z.pos (width c))) (PyInt (Z.pos (height c)))
          (if fullscreen c then pygame.FULLSCREEN else 0)] ++ rest ∧
     Forall (λ x, opens_window x = false) rest) ∧
  pygame.FULLSCREEN ≠ 0.
Proof.
  intros Hfile. split; [|done].
  destruct (document_of_item c) as (Hx & Hy & Hz).
  rewrite (init_complete _ _ _ _ _ Hfile Hx Hy Hz). cbn [truthy].
  destruct (pygame.result _) as [e|scr]; cbn [fst].
  - exists []. split; [by rewrite app_nil_r|constructor].
  - eexists. split; [reflexivity|]. by repeat constructor.
Qed.

Lemma window_request_follows_config_witness :
  files (Sample.configured Sample.exclusive) !! config_path =
    Some (Document (document_of Sample.exclusive)) ∧
  ∃ rest,
    (__init__ (Sample.configured Sample.exclusive)).1 =
      [pygame_init; open_file config_path; yaml_safe_load;
       display_set_mode (PyInt 1920) (PyInt 1080) pygame.FULLSCREEN] ++ rest ∧
    Forall (λ x, opens_window x = false) rest.
Proof.
  assert (files (Sample.configured Sample.exclusive) !! config_path =
            Some (Document (document_of Sample.exclusive))) as Hfile
    by reflexivity.
  split; [exact Hfile|].
  exact (proj1 (window_request_follows_config _ Sample.exclusive Hfile)).
Defined.

(** C6.  When no file exists at the configuration path, the loader raises
    [FileNotFoundError], a [ConfigError] in the spec's taxonomy; the
    process ends with status 1, having called nothing but [pygame.init]
    and [open]: no window is ever asked for. *)
Theorem missing_file_no_window w :
  files w !! config_path = None →
  load_config w = ([open_file config_path], inl FileNotFoundError) ∧
  ConfigError FileNotFoundError = true ∧
  process w = ([pygame_init; open_file config_path], Some 1) ∧
  1 ≠ 0 ∧
  Forall (λ x, opens_window x = false) (process w).1.
Proof.
  intros Hfile. pose proof (load_config_absent _ Hfile) as Hload.
  assert (process w = ([pygame_init; open_file config_path], Some 1)) as Hp.
  { unfold process.
    by rewrite (main_init_fails _ _ _ (init_loader_fails _ _ _ Hload)). }
  rewrite Hp. split_and!; try done. by repeat constructor.
Qed.

Lemma missing_file_no_window_witness :
  files Sample.unconfigured !! config_path = None ∧
  process Sample.unconfigured = ([pygame_init; open_file config_path], Some 1).
Proof.
  assert (files Sample.unconfigured !! config_path = None) as Hfile
    by reflexivity.
  destruct (missing_file_no_window Sample.unconfigured Hfile)
    as (_ & _ & Hprocess & _).
  split; [exact Hfile|exact Hprocess].
Defined.

(** C7.  On a configuration document without the [width], the [height] or
    the [fullscreen] key the program fails for good: an exception of the
    [ConfigError] kind reaches the top level, the exit status is not 0,
    and the window is never asked for, so no value is put in place of the
    missing one. *)
Theorem missing_key_fatal w doc :
  files w !! config_path = Some (Document doc) →
  field doc "width" = None ∨ field doc "height" = None ∨
    field doc "fullscreen" = None →
  ∃ e,
    main w = ([pygame_init; open_file config_path; yaml_safe_load], Some e) ∧
    ConfigError e = true ∧
    (process w).2 = Some (exit_status e) ∧
    exit_status e ≠ 0 ∧
    Forall (λ x, opens_window x = false) (main w).1.
Proof.
  intros Hfile Hlacks.
  destruct (init_lacking _ _ Hfile Hlacks) as (e & Hinit & He).
  destruct (config_error_subscript _ He) as [Hcfg Hst].
  exists e. unfold process. rewrite (main_init_fails _ _ _ Hinit).
  split_and!; [done|done|done|by rewrite Hst|by repeat constructor].
Qed.

Lemma missing_key_fatal_witness :
  files Sample.half_configured !! config_path =
    Some (Document Sample.no_height) ∧
  field Sample.no_height "height" = None ∧
  ∃ e,
    main Sample.half_configured =
      ([pygame_init; open_file config_path; yaml_safe_load], Some e) ∧
    ConfigError e = true.
Proof.
  assert (files Sample.half_configured !! config_path =
            Some (Document Sample.no_height)) as Hfile by reflexivity.
  assert (field Sample.no_height "height" = None) as Hfield by reflexivity.
  split_and!; [exact Hfile|exact Hfield|].
  destruct (missing_key_fatal Sample.half_configured Sample.no_height Hfile
              (or_intror (or_introl Hfield))) as (e & Hmain & Hcfg & _).
  exists e. split; [exact Hmain|exact Hcfg].
Defined.

(** C8.  Round trip: for every [DisplayConfig], the loader run on its
    document returns an object from which the three subscript chains of
    the constructor read back exactly the width, the height and the
    fullscreen flag that were written. *)
Theorem config_round_trip w c :
  files w !! config_path = Some (Document (document_of c)) →
  ∃ cfg,
    (load_config w).2 = inr cfg ∧
    display_item cfg "width" = inr (PyInt (Z.pos (width c))) ∧
    display_item cfg "height" = inr (PyInt (Z.pos (height c))) ∧
    display_item cfg "fullscreen" = inr (PyBool (fullscreen c)).
Proof.
  intros Hfile. exists (document_of c).
  rewrite (load_config_document _ _ Hfile).
  split; [done|]. apply document_of_item.
Qed.

Lemma config_round_trip_witness :
  files (Sample.configured Sample.windowed) !! config_path =
    Some (Document (document_of Sample.windowed)) ∧
  ∃ cfg,
    (load_config (Sample.configured Sample.windowed)).2 = inr cfg ∧
    display_item cfg "width" = inr (PyInt 800) ∧
    display_item cfg "height" = inr (PyInt 600) ∧
    display_item cfg "fullscreen" = inr (PyBool false).
Proof.
  assert (files (Sample.configured Sample.windowed) !! config_path =
            Some (Document (document_of Sample.windowed))) as Hfile
    by reflexivity.
  split; [exact Hfile|].
  exact (config_round_trip _ Sample.windowed Hfile).
Defined.

(** C9.  Every run calls [pygame.init] first and opens the configuration
    file next.  So on each fatal configuration error (file missing,
    unreadable or malformed, or a key missing) the process ends with a
    [ConfigError] and a non-zero status after [pygame.init], and without
    any call of [pygame.quit]. *)
Theorem init_before_config_no_release w :
  (∃ tr, (main w).1 = pygame_init :: open_file config_path :: tr) ∧
  (files w !! config_path = None ∨
   files w !! config_path = Some Unreadable ∨
   files w !! config_path = Some Malformed ∨
   (∃ doc, files w !! config_path = Some (Document doc) ∧ lacks_a_key doc) →
   ∃ e, (main w).2 = Some e ∧ ConfigError e = true ∧ exit_status e ≠ 0 ∧
        pygame_init ∈ (main w).1 ∧ pygame_quit ∉ (main w).1).
Proof.
  split.
  - destruct (init_starts w) as [tr Htr]. unfold main.
    destruct (__init__ w) as [tr0 [e|display]]; cbn [fst] in *; subst tr0.
    + by eexists.
    + destruct (run _ _). by eexists.
  - intros Hfault.
    destruct (main_config_fault _ Hfault) as (tr & e & -> & Htr & Hcfg & Hst).
    exists e. cbn [fst snd]. rewrite Hst. split_and!; try done.
    + by left.
    + destruct Htr as [->| ->]; rewrite !elem_of_cons, elem_of_nil;
        intuition discriminate.
Qed.

Lemma init_before_config_no_release_witness :
  files Sample.unconfigured !! config_path = None ∧
  ∃ e, (main Sample.unconfigured).2 = Some e ∧ ConfigError e = true ∧
       exit_status e ≠ 0 ∧
       pygame_init ∈ (main Sample.unconfigured).1 ∧
       pygame_quit ∉ (main Sample.unconfigured).1.
Proof.
  assert (files Sample.unconfigured !! config_path = None) as Hfile
    by reflexivity.
  split; [exact Hfile|].
  exact (proj2 (init_before_config_no_release Sample.unconfigured)
           (or_introl Hfile)).
Defined.

(** C10.  The loader checks nothing: on every file that parses, whatever
    object comes out, it returns that object after [open] and
    [yaml.safe_load].  A missing [width], [height] or [fullscreen] key
    only shows in the constructor, after the loader has returned, as the
    [KeyError] or [TypeError] of a subscript. *)
Theorem loader_never_validates w doc :
  files w !! config_path = Some (Document doc) →
  load_config w = ([open_file config_path; yaml_safe_load], inr doc) ∧
  (lacks_a_key doc →
   ∃ e, __init__ w = (pygame_init :: (load_config w).1, inl e) ∧
        (e = TypeError ∨ ∃ k, e = KeyError k)).
Proof.
  intros Hfile. pose proof (load_config_document _ _ Hfile) as Hload.
  split; [done|]. intros Hlacks. rewrite Hload.
  exact (init_lacking _ _ Hfile Hlacks).
Qed.

Lemma loader_never_validates_witness :
  files Sample.half_configured !! config_path =
    Some (Document Sample.no_height) ∧
  lacks_a_key Sample.no_height ∧
  load_config Sample.half_configured =
    ([open_file config_path; yaml_safe_load], inr Sample.no_height) ∧
  ∃ e, __init__ Sample.half_configured =
         (pygame_init :: (load_config Sample.half_configured).1, inl e) ∧
       (e = TypeError ∨ ∃ k, e = KeyError k).
Proof.
  assert (files Sample.half_configured !! config_path =
            Some (Document Sample.no_height)) as Hfile by reflexivity.
  assert (lacks_a_key Sample.no_height) as Hlacks by (right; left; reflexivity).
  destruct (loader_never_validates Sample.half_configured Sample.no_height Hfile)
    as [Hload Hlater].
  split_and!; [exact Hfile|exact Hlacks|exact Hload|exact (Hlater Hlacks)].
Defined.

End StartupClaims.

(** ** Further properties of the event loop *)

Section LoopProperties.

Import DisplayManager.

Implicit Types (self : DisplayManager.t) (e : pygame.event)
  (batch : list pygame.event) (schedule : list (list pygame.event)).

Lemma batch_quits_true batch :
  batch_quits batch = true → Exists (λ e, quit_intent e = true) batch.
Proof.
  unfold batch_quits. induction batch as [|e rest IH]; cbn; [done|].
  intros [He|Hrest]%orb_true_iff; [by left|right; auto].
Qed.

Lemma batch_quits_false batch :
  batch_quits batch = false → Forall (λ e, quit_intent e = false) batch.
Proof.
  unfold batch_quits. induction batch as [|e rest IH]; cbn; [constructor|].
  intros [He Hrest]%orb_false_iff. constructor; auto.
Qed.

(** One step of the loop, by whether the batch makes it leave. *)
Lemma run_step self batch later :
  run self (batch :: later) =
    if batch_quits batch then ([event_get; pygame_quit], Some SystemExit)
    else (pass self ++ (run self later).1, (run self later).2).
Proof.
  destruct (batch_quits batch) eqn:Hb.
  - by apply run_quit_now, batch_quits_true.
  - by apply run_quiet_now, batch_quits_false.
Qed.

Lemma run_passes self schedule :
  run self schedule =
    (mjoin (replicate (quiet_polls schedule) (pass self)) ++
       (if reaches_quit schedule then [event_get; pygame_quit] else []),
     if reaches_quit schedule then Some SystemExit else None).
Proof.
  induction schedule as [|batch later IH]; [reflexivity|].
  rewrite run_step. unfold reaches_quit in *. cbn [existsb quiet_polls].
  destruct (batch_quits batch); [reflexivity|].
  rewrite IH. cbn [fst snd orb replicate]. f_equal.
Qed.

(** X6.  The whole run, in closed form: one pass (poll, clear, present)
    for each poll before the first that holds quit-intent; then, if there
    is such a poll, one more [event.get] followed by [pygame.quit] and
    [SystemExit]; otherwise the loop is still running. *)
Theorem run_closed_form self schedule :
  run self schedule =
    (mjoin (replicate (quiet_polls schedule) (pass self)) ++
       (if reaches_quit schedule then [event_get; pygame_quit] else []),
     if reaches_quit schedule then Some SystemExit else None) ∧
  (quiet_polls schedule ≤ length schedule)%nat ∧
  (reaches_quit schedule = false → quiet_polls schedule = length schedule).
Proof.
  split; [apply run_passes|].
  unfold reaches_quit.
  induction schedule as [|batch later [IH1 IH2]]; cbn; [done|].
  destruct (batch_quits batch); cbn; split; try lia; try done.
  intros H. by rewrite IH2.
Qed.

(** X7.  The loop looks at nothing but quit-intent: two schedules whose
    polls agree, one by one, on whether they hold a window-close event or
    an Escape key press give the same run, whatever else (and in whatever
    order) the batches hold. *)
Theorem run_sees_only_quit_intent self schedule schedule' :
  Forall2 (λ batch batch', batch_quits batch = batch_quits batch')
    schedule schedule' →
  run self schedule = run self schedule'.
Proof.
  induction 1 as [|batch batch' later later' Hb _ IH]; [reflexivity|].
  rewrite !run_step, Hb, IH. reflexivity.
Qed.

Lemma run_sees_only_quit_intent_witness :
  Forall2 (λ batch batch', batch_quits batch = batch_quits batch')
    Sample.session Scenario.bare_session ∧
  run Sample.self Sample.session = run Sample.self Scenario.bare_session.
Proof.
  assert (Forall2 (λ batch batch', batch_quits batch = batch_quits batch')
            Sample.session Scenario.bare_session) as Hsame
    by (repeat constructor).
  split; [exact Hsame|].
  exact (run_sees_only_quit_intent Sample.self _ _ Hsame).
Defined.

(** X8.  Runs compose.  Once the loop has been left, polls that would
    have come later change nothing: they are never made.  While it has
    not been left, the run over a longer schedule is the run so far
    followed by the run over the rest. *)
Theorem run_app self schedule more :
  run self (schedule ++ more) =
    match (run self schedule).2 with
    | Some _ => run self schedule
    | None => ((run self schedule).1 ++ (run self more).1, (run self more).2)
    end.
Proof.
  induction schedule as [|batch later IH].
  - cbn. by destruct (run self more).
  - cbn [app]. rewrite !run_step.
    destruct (batch_quits batch); [reflexivity|].
    rewrite IH. cbn [fst snd].
    destruct (run self later) as [tr [x|]]; cbn [fst snd]; [reflexivity|].
    by rewrite <- app_assoc.
Qed.

(** X11.  The test of the loop never raises: [event.key] is read on
    [KEYDOWN] events only, and they have it.  It holds exactly for a
    [QUIT] event and for a [KEYDOWN] event whose key is [K_ESCAPE];
    releasing Escape, or pressing another key, does not pass it. *)
Theorem quit_test_exact e :
  (∃ b, quit_test e = inr b) ∧
  (quit_test e = inr true ↔
   e = pygame.Quit ∨ ∃ modifiers, e = pygame.KeyDown pygame.K_ESCAPE modifiers) ∧
  (∀ k modifiers, quit_test (pygame.KeyUp k modifiers) = inr false) ∧
  (∀ k modifiers, k ≠ pygame.K_ESCAPE →
     quit_test (pygame.KeyDown k modifiers) = inr false).
Proof.
  split_and!.
  - rewrite quit_test_intent. by eexists.
  - split.
    + destruct e as [|k m|k m| | | | | | |]; cbn; try done; [by left|].
      destruct (Z.eqb_spec k pygame.K_ESCAPE) as [->|]; [|done].
      right. by eexists.
    + by intros [->|[m ->]].
  - done.
  - intros k m Hk. cbn. by destruct (Z.eqb_spec k pygame.K_ESCAPE).
Qed.

End LoopProperties.

(** ** Further properties of start-up and of the whole program *)

Section ProgramProperties.

Import DisplayManager.

Implicit Types (w : world) (doc : pyval) (self : DisplayManager.t).

(** The constructor on a file that parses, by the outcome of the three
    subscripts and of [set_mode]. *)
Lemma init_document w doc :
  files w !! config_path = Some (Document doc) →
  let before := [pygame_init; open_file config_path; yaml_safe_load] in
  __init__ w =
    match display_item doc "width" with
    | inl e => (before, inl e)
    | inr x =>
      match display_item doc "height" with
      | inl e => (before, inl e)
      | inr y =>
        match display_item doc "fullscreen" with
        | inl e => (before, inl e)
        | inr z =>
          let flags := if truthy z then pygame.FULLSCREEN else 0 in
          match pygame.result (display w x y flags) with
          | inl e => (before ++ [display_set_mode x y flags], inl e)
          | inr scr =>
              (before ++ [display_set_mode x y flags;
                          display_set_caption "Digital Life"],
               inr (Self doc scr))
          end
        end
      end
    end.
Proof.
  intros Hfile. unfold __init__.
  rewrite (load_config_document _ _ Hfile). cbn [do bind app].
  destruct (display_item doc "width") as [e|x]; [done|].
  destruct (display_item doc "height") as [e|y]; [done|].
  destruct (display_item doc "fullscreen") as [e|z]; [done|].
  cbn [lift bind app do]. by destruct (pygame.result _).
Qed.

Lemma display_item_present doc key x :
  field doc key = Some x → display_item doc key = inr x.
Proof.
  intros H. pose proof (display_item_field doc key) as Hf. by rewrite H in Hf.
Qed.

Lemma main_init_succeeds w tr self :
  __init__ w = (tr, inr self) →
  main w = (tr ++ (run self (polls w)).1, (run self (polls w)).2).
Proof. intros H. unfold main. rewrite H. by destruct (run self (polls w)). Qed.

(** The loop never reads [self.config]. *)
Lemma run_config cfg cfg' scr schedule :
  run (Self cfg scr) schedule = run (Self cfg' scr) schedule.
Proof. by rewrite (run_passes (Self cfg scr)), (run_passes (Self cfg' scr)). Qed.

(** The calls of the constructor, whatever the world: one of five
    sequences, the longest of them on success only. *)
Lemma init_trace w :
  ∃ tail, (__init__ w).1 = pygame_init :: open_file config_path :: tail ∧
    ((tail = [] ∨ tail = [yaml_safe_load] ∨
      ∃ x y flags, tail = [yaml_safe_load; display_set_mode x y flags]) ∧
     (∃ e, (__init__ w).2 = inl e ∧ exit_status e = 1) ∨
     (∃ x y flags, tail = [yaml_safe_load; display_set_mode x y flags;
                           display_set_caption "Digital Life"]) ∧
     (∃ self, (__init__ w).2 = inr self)).
Proof.
  destruct (files w !! config_path) as [[| |doc]|] eqn:Hfile.
  - rewrite (init_loader_fails _ _ _ (load_config_unreadable _ Hfile)).
    exists []. split; [done|]. left. split; [by left|by eexists].
  - rewrite (init_loader_fails _ _ _ (load_config_malformed _ Hfile)).
    exists [yaml_safe_load]. split; [done|]. left.
    split; [by right; left|by eexists].
  - rewrite (init_document _ _ Hfile). cbn zeta.
    pose proof (display_item_field doc "width") as Hw.
    pose proof (display_item_field doc "height") as Hh.
    pose proof (display_item_field doc "fullscreen") as Hf.
    assert (∀ e, (e = TypeError ∨ ∃ k, e = KeyError k) → exit_status e = 1)
      as Hst by (by intros e [->|[k ->]]).
    destruct (field doc "width") as [x|].
    2:{ destruct Hw as (e & -> & He). exists [yaml_safe_load].
        split; [done|]. left. split; [by right; left|]. exists e. auto. }
    rewrite Hw.
    destruct (field doc "height") as [y|].
    2:{ destruct Hh as (e & -> & He). exists [yaml_safe_load].
        split; [done|]. left. split; [by right; left|]. exists e. auto. }
    rewrite Hh.
    destruct (field doc "fullscreen") as [z|].
    2:{ destruct Hf as (e & -> & He). exists [yaml_safe_load].
        split; [done|]. left. split; [by right; left|]. exists e. auto. }
    rewrite Hf.
    destruct (display w x y _) as [scr| |] eqn:Hd; cbn [pygame.result].
    + eexists. split; [reflexivity|]. right. split; by repeat eexists.
    + eexists. split; [reflexivity|]. left.
      split; [right; right; by repeat eexists|by eexists].
    + eexists. split; [reflexivity|]. left.
      split; [right; right; by repeat eexists|by eexists].
  - rewrite (init_loader_fails _ _ _ (load_config_absent _ Hfile)).
    exists []. split; [done|]. left. split; [by left|by eexists].
Qed.





Lemma fill_replicate c (s : pygame.surface) :
  pygame.fill c s = replicate (length s) c.
Proof. unfold pygame.fill. induction s as [|p s IH]; cbn; by f_equal. Qed.

(** X1.  The constructor validates and converts nothing: whatever objects
    the document holds under [width], [height] and [fullscreen], the first
    two are handed to [set_mode] as they are, and the flags are
    [FULLSCREEN] exactly when the third is true in Python's sense (so a
    non-empty string such as "false" asks for fullscreen).  Up to that
    call the constructor has only initialised pygame and read the file;
    after it, at most the caption is set. *)
Theorem window_request_unvalidated w doc x y z :
  files w !! config_path = Some (Document doc) →
  field doc "width" = Some x →
  field doc "height" = Some y →
  field doc "fullscreen" = Some z →
  ∃ rest,
    (__init__ w).1 =
      [pygame_init; open_file config_path; yaml_safe_load;
       display_set_mode x y (if truthy z then pygame.FULLSCREEN else 0)]
      ++ rest ∧
    (rest = [] ∨ rest = [display_set_caption "Digital Life"]).
Proof.
  intros Hfile Hx%display_item_present Hy%display_item_present
    Hz%display_item_present.
  rewrite (init_document _ _ Hfile), Hx, Hy, Hz. cbn zeta.
  destruct (pygame.result _) as [e|scr]; cbn [fst].
  - exists []. split; [done|by left].
  - eexists. split; [reflexivity|by right].
Qed.

Lemma window_request_unvalidated_witness :
  files (Scenario.with_document Scenario.odd Scenario.strict Sample.idle)
    !! config_path = Some (Document Scenario.odd) ∧
  field Scenario.odd "width" = Some (PyStr "wide") ∧
  field Scenario.odd "height" = Some (PyInt (-5)) ∧
  field Scenario.odd "fullscreen" = Some (PyStr "false") ∧
  ∃ rest,
    (__init__ (Scenario.with_document Scenario.odd Scenario.strict Sample.idle)).1 =
      [pygame_init; open_file config_path; yaml_safe_load;
       display_set_mode (PyStr "wide") (PyInt (-5)) pygame.FULLSCREEN]
      ++ rest ∧
    (rest = [] ∨ rest = [display_set_caption "Digital Life"]).
Proof.
  assert (files (Scenario.with_document Scenario.odd Scenario.strict Sample.idle)
            !! config_path = Some (Document Scenario.odd)) as Hfile
    by reflexivity.
  assert (field Scenario.odd "width" = Some (PyStr "wide")) as Hx
    by reflexivity.
  assert (field Scenario.odd "height" = Some (PyInt (-5))) as Hy
    by reflexivity.
  assert (field Scenario.odd "fullscreen" = Some (PyStr "false")) as Hz
    by reflexivity.
  split_and!; [exact Hfile|exact Hx|exact Hy|exact Hz|].
  exact (window_request_unvalidated _ _ _ _ _ Hfile Hx Hy Hz).
Defined.

(** X2.  When [set_mode] raises, start-up ends there: the exception
    ([TypeError] or [pygame.error]) reaches the top level, the exit status
    is 1, and after the [set_mode] call nothing more is called: no
    caption, no poll of events, no [pygame.quit]. *)
Theorem set_mode_failure_stops_startup w doc x y z e :
  files w !! config_path = Some (Document doc) →
  field doc "width" = Some x →
  field doc "height" = Some y →
  field doc "fullscreen" = Some z →
  pygame.result
    (display w x y (if truthy z then pygame.FULLSCREEN else 0)) = inl e →
  main w =
    ([pygame_init; open_file config_path; yaml_safe_load;
      display_set_mode x y (if truthy z then pygame.FULLSCREEN else 0)],
     Some e) ∧
  (e = TypeError ∨ e = PygameError) ∧
  (process w).2 = Some 1.
Proof.
  intros Hfile Hx%display_item_present Hy%display_item_present
    Hz%display_item_present He.
  assert (e = TypeError ∨ e = PygameError) as Hkind.
  { destruct (display w x y _); cbn in He; simplify_eq; auto. }
  assert (main w =
    ([pygame_init; open_file config_path; yaml_safe_load;
      display_set_mode x y (if truthy z then pygame.FULLSCREEN else 0)],
     Some e)) as Hmain.
  { apply main_init_fails.
    rewrite (init_document _ _ Hfile), Hx, Hy, Hz. cbn zeta. by rewrite He. }
  split_and!; [done|done|].
  unfold process. rewrite Hmain. by destruct Hkind as [-> | ->].
Qed.

Lemma set_mode_failure_stops_startup_witness :
  files (Scenario.with_document Scenario.odd Scenario.strict Sample.session)
    !! config_path = Some (Document Scenario.odd) ∧
  pygame.result
    (Scenario.strict (PyStr "wide") (PyInt (-5)) pygame.FULLSCREEN) =
    inl TypeError ∧
  process (Scenario.with_document Scenario.odd Scenario.strict Sample.session) =
    ([pygame_init; open_file config_path; yaml_safe_load;
      display_set_mode (PyStr "wide") (PyInt (-5)) pygame.FULLSCREEN],
     Some 1).
Proof.
  assert (files (Scenario.with_document Scenario.odd Scenario.strict
                   Sample.session) !! config_path =
            Some (Document Scenario.odd)) as Hfile by reflexivity.
  assert (pygame.result
            (Scenario.strict (PyStr "wide") (PyInt (-5)) pygame.FULLSCREEN) =
          inl TypeError) as He by reflexivity.
  destruct (set_mode_failure_stops_startup
              (Scenario.with_document Scenario.odd Scenario.strict Sample.session)
              Scenario.odd (PyStr "wide") (PyInt (-5)) (PyStr "false") TypeError
              Hfile eq_refl eq_refl eq_refl He) as (Hmain & _ & Hstatus).
  split_and!; [exact Hfile|exact He|].
  unfold process in *. rewrite Hmain in *. reflexivity.
Defined.

(** X3.  The arguments of [set_mode] are evaluated from left to right, so
    when the [display] section lacks several keys the [KeyError] that ends
    the process names the first one missing in the order [width],
    [height], [fullscreen]; the window is not asked for. *)
Theorem first_missing_key_reported w top section k :
  files w !! config_path = Some (Document (PyDict top)) →
  top !! "display" = Some (PyDict section) →
  first_missing section = Some k →
  main w =
    ([pygame_init; open_file config_path; yaml_safe_load],
     Some (KeyError k)) ∧
  section !! k = None ∧
  (k = "height" → is_Some (section !! "width")) ∧
  (k = "fullscreen" →
     is_Some (section !! "width") ∧ is_Some (section !! "height")).
Proof.
  intros Hfile Hdisplay.
  assert (∀ key, display_item (PyDict top) key =
            match section !! key with
            | Some v => inr v
            | None => inl (KeyError key)
            end) as Hitem.
  { intros key. unfold display_item. cbn [getitem]. by rewrite Hdisplay. }
  assert (∀ e, __init__ w =
            ([pygame_init; open_file config_path; yaml_safe_load], inl e) →
          main w =
            ([pygame_init; open_file config_path; yaml_safe_load], Some e))
    as Hmain by (intros e; apply main_init_fails).
  pose proof (init_document _ _ Hfile) as Hinit. cbn zeta in Hinit.
  rewrite !Hitem in Hinit.
  unfold first_missing. cbn [List.filter].
  destruct (section !! "width") as [x|] eqn:Hw.
  2:{ rewrite bool_decide_eq_true_2 by done. cbn [head]. intros [= <-].
      split_and!; [by apply Hmain|done..]. }
  rewrite bool_decide_eq_false_2 by done.
  destruct (section !! "height") as [y|] eqn:Hh.
  2:{ rewrite bool_decide_eq_true_2 by done. cbn [head]. intros [= <-].
      split_and!; [by apply Hmain|done|by eauto|done]. }
  rewrite bool_decide_eq_false_2 by done.
  destruct (section !! "fullscreen") as [z|] eqn:Hf.
  { rewrite bool_decide_eq_false_2 by done. done. }
  rewrite bool_decide_eq_true_2 by done. cbn [head]. intros [= <-].
  split_and!; [by apply Hmain|done|done|by eauto].
Qed.

Lemma first_missing_key_reported_witness :
  files (Scenario.with_document Scenario.width_only Sample.tiny Sample.session)
    !! config_path = Some (Document Scenario.width_only) ∧
  first_missing {[ "width" := PyInt 640 ]} = Some "height" ∧
  main (Scenario.with_document Scenario.width_only Sample.tiny Sample.session) =
    ([pygame_init; open_file config_path; yaml_safe_load],
     Some (KeyError "height")).
Proof.
  assert (files (Scenario.with_document Scenario.width_only Sample.tiny
                   Sample.session) !! config_path =
            Some (Document Scenario.width_only)) as Hfile by reflexivity.
  assert (first_missing {[ "width" := PyInt 640 ]} = Some "height") as Hk
    by reflexivity.
  split_and!; [exact Hfile|exact Hk|].
  exact (proj1 (first_missing_key_reported _ _ _ _ Hfile eq_refl Hk)).
Defined.

(** X4.  Only three values of the document matter.  Two documents that
    hold the same objects under [display]/[width], [display]/[height] and
    [display]/[fullscreen] make the whole program behave the same, call
    for call, on the same display and the same polls, whatever other keys
    either of them has: the loop never reads the configuration. *)
Theorem other_keys_ignored w w' doc doc' x y z :
  files w !! config_path = Some (Document doc) →
  files w' !! config_path = Some (Document doc') →
  display w = display w' →
  polls w = polls w' →
  field doc "width" = Some x → field doc' "width" = Some x →
  field doc "height" = Some y → field doc' "height" = Some y →
  field doc "fullscreen" = Some z → field doc' "fullscreen" = Some z →
  main w = main w'.
Proof.
  intros Hfile Hfile' Hdisplay Hpolls
    Hx%display_item_present Hx'%display_item_present
    Hy%display_item_present Hy'%display_item_present
    Hz%display_item_present Hz'%display_item_present.
  pose proof (init_document _ _ Hfile) as Hinit.
  pose proof (init_document _ _ Hfile') as Hinit'.
  cbn zeta in *. rewrite Hx, Hy, Hz in Hinit. rewrite Hx', Hy', Hz' in Hinit'.
  rewrite <- Hdisplay in Hinit'.
  destruct (pygame.result _) as [e|scr].
  - by rewrite (main_init_fails _ _ _ Hinit), (main_init_fails _ _ _ Hinit').
  - rewrite (main_init_succeeds _ _ _ Hinit), (main_init_succeeds _ _ _ Hinit').
    by rewrite <- Hpolls, (run_config doc doc').
Qed.

Lemma other_keys_ignored_witness :
  field Scenario.odd "width" = field Scenario.odd_bare "width" ∧
  field Scenario.odd "height" = field Scenario.odd_bare "height" ∧
  field Scenario.odd "fullscreen" = field Scenario.odd_bare "fullscreen" ∧
  main (Scenario.with_document Scenario.odd Sample.tiny Sample.session) =
  main (Scenario.with_document Scenario.odd_bare Sample.tiny Sample.session).
Proof.
  split_and!; [reflexivity..|].
  exact (other_keys_ignored
           (Scenario.with_document Scenario.odd Sample.tiny Sample.session)
           (Scenario.with_document Scenario.odd_bare Sample.tiny Sample.session)
           Scenario.odd Scenario.odd_bare
           (PyStr "wide") (PyInt (-5)) (PyStr "false")
           eq_refl eq_refl eq_refl eq_refl
           eq_refl eq_refl eq_refl eq_refl eq_refl eq_refl).
Defined.



(** X9.  The exit status, in full.  If the constructor raises, the status
    is 1: [SystemExit] is raised nowhere but in the loop.  If it returns,
    the status is 0 as soon as a poll holds quit-intent, and until then
    the process is still running: it ends in no other way. *)
Theorem exit_status_classified w :
  (process w).2 =
    match (__init__ w).2 with
    | inl _ => Some 1
    | inr _ => if reaches_quit (polls w) then Some 0 else None
    end.
Proof.
  destruct (init_trace w) as (tail & _ & [(_ & e & He & Hst)|(_ & self & Hs)]).
  - rewrite He. unfold process.
    destruct (__init__ w) as [tr r] eqn:Hinit. cbn [snd] in He. subst r.
    rewrite (main_init_fails _ _ _ Hinit). cbn. by rewrite Hst.
  - rewrite Hs. unfold process.
    destruct (__init__ w) as [tr r] eqn:Hinit. cbn [snd] in Hs. subst r.
    rewrite (main_init_succeeds _ _ _ Hinit), run_passes. cbn [snd].
    by destruct (reaches_quit (polls w)).
Qed.


(** X12.  The surface the loop clears and presents is the one [set_mode]
    returned.  With the three values in the document and a display that
    opens surface [s], the program presents one frame for each poll
    before the first that holds quit-intent, and each frame is [s] in
    extent and black all over, whatever [set_mode] left in it. *)
Theorem frames_of_program w doc x y z s :
  files w !! config_path = Some (Document doc) →
  field doc "width" = Some x →
  field doc "height" = Some y →
  field doc "fullscreen" = Some z →
  display w x y (if truthy z then pygame.FULLSCREEN else 0) = pygame.Opened s →
  frames (main w).1 =
    replicate (quiet_polls (polls w)) (replicate (length s) (0, 0, 0)).
Proof.
  intros Hfile Hx%display_item_present Hy%display_item_present
    Hz%display_item_present Hopen.
  pose proof (init_document _ _ Hfile) as Hinit. cbn zeta in Hinit.
  rewrite Hx, Hy, Hz, Hopen in Hinit. cbn [pygame.result] in Hinit.
  rewrite (main_init_succeeds _ _ _ Hinit), run_passes. cbn [fst].
  change (frames (?pre ++ ?tr)) with (frames tr).
  rewrite frames_passes. cbn [screen]. rewrite fill_replicate.
  destruct (reaches_quit (polls w)); cbn [frames omap]; by rewrite app_nil_r.
Qed.

Lemma frames_of_program_witness :
  files (Sample.configured Sample.windowed) !! config_path =
    Some (Document (document_of Sample.windowed)) ∧
  Sample.tiny (PyInt 800) (PyInt 600) 0 =
    pygame.Opened [(255, 255, 255); (12, 34, 56)] ∧
  frames (main (Sample.configured Sample.windowed)).1 =
    [[(0, 0, 0); (0, 0, 0)]; [(0, 0, 0); (0, 0, 0)]].
Proof.
  split_and!; [reflexivity..|].
  exact (frames_of_program (Sample.configured Sample.windowed)
           (document_of Sample.windowed) (PyInt 800) (PyInt 600) (PyBool false)
           [(255, 255, 255); (12, 34, 56)]
           eq_refl eq_refl eq_refl eq_refl eq_refl).
Defined.

End ProgramProperties.
